(** * MatchZoo point generator: batches of (features, targets)

    A shallow embedding of [matchzoo/generators/point_generator.py].
    The generator object is a record of its attributes, methods run in a
    state-and-exception monad over that record, and the numpy operations
    the method relies on ([np.zeros], integer and list indexing with
    wrap-around of negative indices and the conversion of an integer index
    to a C long, item assignment, [np.array]) are written out over lists. *)

From stdpp Require Import base tactics option list numbers strings.

Local Open Scope Z_scope.

(** ** Python exceptions and fallible results *)

Inductive exn :=
| IndexError
| OverflowError
| ValueError (msg : string).

Inductive result (A : Type) :=
| Ok (a : A)
| Raise (e : exn).
Arguments Ok {A} a.
Arguments Raise {A} e.

#[export] Instance result_ret : MRet result := fun A a => Ok a.
#[export] Instance result_bind : MBind result := fun A B f m =>
  match m with
  | Ok a => f a
  | Raise e => Raise e
  end.

(** ** The part of numpy the generator uses *)

Module np.

(** Arrays by shape: [(n,)] of integers, [(n, ncols)] of integers, and
    [(n,)] of Python objects (here: token lists of unequal lengths). *)
Inductive ndarray :=
| Arr1 (data : list Z)
| Arr2 (ncols : nat) (rows : list (list Z))
| ArrObj (items : list (list Z)).

Definition shape (a : ndarray) : list nat :=
  match a with
  | Arr1 data => [length data]
  | Arr2 ncols rows => [length rows; ncols]
  | ArrObj items => [length items]
  end.

(** [len(a)]: the extent of the first axis. *)
Definition len (a : ndarray) : nat :=
  match a with
  | Arr1 data => length data
  | Arr2 _ rows => length rows
  | ArrObj items => length items
  end.

(** [a[i]] for an array of sequences, as an optional row. *)
Definition row (a : ndarray) (i : nat) : option (list Z) :=
  match a with
  | Arr1 _ => None
  | Arr2 _ rows => rows !! i
  | ArrObj items => items !! i
  end.

(** The integers a C long holds (64 bits). *)
Definition fits_intp (k : Z) : Prop :=
  -9223372036854775808 <= k < 9223372036854775808.

#[global] Instance fits_intp_dec (k : Z) : Decision (fits_intp k).
Proof. unfold fits_intp. apply _. Defined.

(** The bounds check of an index [k] on an axis of extent [n]:
    [0 <= k < n] is taken as it is, [-n <= k < 0] counts from the end,
    anything else is an [IndexError]. *)
Definition check_bounds (n : nat) (k : Z) : result nat :=
  if decide (0 <= k < Z.of_nat n) then Ok (Z.to_nat k)
  else if decide (- Z.of_nat n <= k < 0) then Ok (Z.to_nat (k + Z.of_nat n))
  else Raise IndexError.

(** A Python or numpy integer [k] used as an index: it is converted to a
    C long, an [OverflowError] when it does not fit, and then checked
    against the axis.  An axis has fewer than [2^63] entries, so the
    indices that pass the bounds check are the ones that pass both steps. *)
Definition normalize_index (n : nat) (k : Z) : result nat :=
  match check_bounds n k with
  | Ok i => Ok i
  | Raise e => if decide (fits_intp k) then Raise e else Raise OverflowError
  end.

Definition item {A} (a : list A) (i : nat) : result A :=
  match a !! i with
  | Some x => Ok x
  | None => Raise IndexError
  end.

(** [a[k]] with an integer [k]. *)
Definition getitem {A} (a : list A) (k : Z) : result A :=
  i ← normalize_index (length a) k;
  item a i.

(** One entry [k] of an index array: the list used as an index is turned
    into an array as a whole, so its entries meet the bounds check only. *)
Definition getitem_in_array {A} (a : list A) (k : Z) : result A :=
  i ← check_bounds (length a) k;
  item a i.

(** [a[ks]] with a list of integers [ks]: a new array, one entry per
    index, failing on the first index out of range. *)
Fixpoint take {A} (a : list A) (ks : list Z) : result (list A) :=
  match ks with
  | [] => Ok []
  | k :: ks' =>
      x ← getitem_in_array a k;
      xs ← take a ks';
      Ok (x :: xs)
  end.

(** [np.zeros((n, c), dtype=np.int32)]. *)
Definition zeros (n : nat) (c : Z) : result ndarray :=
  if decide (c < 0) then Raise (ValueError "negative dimensions are not allowed"%string)
  else Ok (Arr2 (Z.to_nat c) (replicate n (replicate (Z.to_nat c) 0))).

(** [a[i, j] = v] on a two-dimensional array. *)
Definition setitem2 (a : ndarray) (i j : Z) (v : Z) : result ndarray :=
  match a with
  | Arr2 ncols rows =>
      i' ← normalize_index (length rows) i;
      j' ← normalize_index ncols j;
      Ok (Arr2 ncols (alter (fun r => <[j' := v]> r) i' rows))
  | _ => Raise IndexError
  end.

(** [np.array(a)] of an array: a copy. *)
Definition array (a : ndarray) : ndarray := a.

(** [np.array(l)] of a Python list of token lists: two-dimensional when
    all rows have one length, an object array of the rows otherwise, and
    the empty one-dimensional array for the empty list. *)
Definition array_of_rows (l : list (list Z)) : ndarray :=
  match l with
  | [] => Arr1 []
  | r :: rest =>
      if forallb (fun r' => Nat.eqb (length r') (length r)) rest
      then Arr2 (length r) l
      else ArrObj l
  end.

End np.

(** ** Task descriptors *)

Module tasks.

(** Modelled from the spec: the [tasks] module is not part of the
    sources at hand.  A task is a [Ranking] value (no parameters), a
    [Classification] value carrying its number of classes, or any other
    object; [isinstance] distinguishes the three. *)
Inductive BaseTask :=
| Ranking
| Classification (_num_classes : Z)
| Other (repr : string).

End tasks.

(** ** The data pack *)

Module datapack.

(** Modelled from the spec: the [DataPack] class is not part of the
    sources at hand.  Its dataframe is a table with the columns
    [text_left], [text_right], [label], [id_left] and [id_right]. *)
Record Row := {
  text_left : list Z;
  text_right : list Z;
  label : Z;
  id_left : string;
  id_right : string
}.

Record DataPack := { dataframe : list Row }.

End datapack.

(** ** The generator object *)

Record PointGenerator := {
  _task : tasks.BaseTask;
  x_left : list (list Z);
  x_right : list (list Z);
  y : list Z;
  id_left : list string;
  id_right : list string;
  (* handed to the base class *)
  batch_size : Z;
  num_instances : nat;
  shuffle : bool
}.

(** [transform_data]: the five columns as arrays. *)
Definition transform_data (inputs : datapack.DataPack)
  : list (list Z) * list (list Z) * list Z * list string * list string :=
  let data := datapack.dataframe inputs in
  (map datapack.text_left data,
   map datapack.text_right data,
   map datapack.label data,
   map datapack.id_left data,
   map datapack.id_right data).

(** [__init__]. *)
Definition init (inputs : datapack.DataPack) (task : tasks.BaseTask)
    (batch_size : Z) (shuffle : bool) : PointGenerator :=
  let '(x_left, x_right, y, id_left, id_right) := transform_data inputs in
  {| _task := task;
     x_left := x_left; x_right := x_right; y := y;
     id_left := id_left; id_right := id_right;
     batch_size := batch_size;
     num_instances := length (datapack.dataframe inputs);
     shuffle := shuffle |}.

(** ** Methods: state over [self], with exceptions *)

Definition M (A : Type) : Type := PointGenerator -> PointGenerator * result A.

#[export] Instance M_ret : MRet M := fun A a self => (self, Ok a).
#[export] Instance M_bind : MBind M := fun A B f m self =>
  match m self with
  | (self', Ok a) => f a self'
  | (self', Raise e) => (self', Raise e)
  end.

(** [self.attr] *)
Definition getattr {A} (attr : PointGenerator -> A) : M A :=
  fun self => (self, Ok (attr self)).

(** [self.attr = v], through a record update [upd]. *)
Definition setattr (upd : PointGenerator -> PointGenerator) : M unit :=
  fun self => (upd self, Ok tt).

Definition raise {A} (e : exn) : M A := fun self => (self, Raise e).

(** A numpy call, which touches no attribute. *)
Definition lift {A} (r : result A) : M A := fun self => (self, r).

(** [for a in l: acc = body acc a] *)
Fixpoint for_each {A B} (l : list A) (body : B -> A -> M B) (acc : B) : M B :=
  match l with
  | [] => mret acc
  | a :: l' => acc' ← body acc a; for_each l' body acc'
  end.

Fixpoint enumerate_from {A} (start : nat) (l : list A) : list (nat * A) :=
  match l with
  | [] => []
  | a :: l' => (start, a) :: enumerate_from (S start) l'
  end.

Definition enumerate {A} (l : list A) : list (nat * A) := enumerate_from 0 l.

(** The feature mapping of a batch, by key. *)
Record features := {
  f_x_left : np.ndarray;
  f_x_right : np.ndarray;
  f_id_left : list string;
  f_id_right : list string
}.

Definition invalid_task_msg : string :=
  ("{self._task} is not a valid target mode, " ++
   ":class:`Ranking` and :class:`Classification` expected.")%string.

(** The four lists filled by the gathering loop. *)
Record batch_lists := {
  batch_x_left : list (list Z);
  batch_x_right : list (list Z);
  batch_id_left : list string;
  batch_id_right : list string
}.

(** Body of the gathering loop: [batch_x_left.append(self.x_left[val])] and
    the three appends after it. *)
Definition gather_row (b : batch_lists) (kv : nat * Z) : M batch_lists :=
  let val := kv.2 in
  xl ← getattr x_left; l ← lift (np.getitem xl val);
  xr ← getattr x_right; r ← lift (np.getitem xr val);
  il ← getattr id_left; i ← lift (np.getitem il val);
  ir ← getattr id_right; j ← lift (np.getitem ir val);
  mret {| batch_x_left := batch_x_left b ++ [l];
          batch_x_right := batch_x_right b ++ [r];
          batch_id_left := batch_id_left b ++ [i];
          batch_id_right := batch_id_right b ++ [j] |}.

(** Body of the one-hot loop: [batch_y[i, label] = 1]. *)
Definition one_hot_step (batch_y : np.ndarray) (il : nat * Z) : M np.ndarray :=
  lift (np.setitem2 batch_y (Z.of_nat il.1) il.2 1).

(** [_get_batch_of_transformed_samples] *)
Definition _get_batch_of_transformed_samples (index_array : list Z)
  : M (features * np.ndarray) :=
  let batch_size := length index_array in
  let empty := {| batch_x_left := []; batch_x_right := [];
                  batch_id_left := []; batch_id_right := [] |} in
  task ← getattr _task;
  batch_y ←
    match task with
    | tasks.Ranking =>
        y ← getattr y;
        mret (np.Arr1 y)
    | tasks.Classification num_classes =>
        batch_y ← lift (np.zeros batch_size num_classes);
        y ← getattr y;
        labels ← lift (np.take y index_array);
        for_each (enumerate labels) one_hot_step batch_y
    | tasks.Other _ =>
        raise (ValueError invalid_task_msg)
    end;
  b ← for_each (enumerate index_array) gather_row empty;
  mret ({| f_x_left := np.array_of_rows (batch_x_left b);
           f_x_right := np.array_of_rows (batch_x_right b);
           f_id_left := batch_id_left b;
           f_id_right := batch_id_right b |},
        np.array batch_y).

Definition get_batch := _get_batch_of_transformed_samples.

(** ** Running example of the specification *)

Definition example_rows : list datapack.Row :=
  [ {| datapack.text_left := [1; 2]; datapack.text_right := [3; 4];
       datapack.label := 0;
       datapack.id_left := "l0"%string; datapack.id_right := "r0"%string |};
    {| datapack.text_left := [5; 6]; datapack.text_right := [7; 8];
       datapack.label := 1;
       datapack.id_left := "l1"%string; datapack.id_right := "r1"%string |};
    {| datapack.text_left := [9]; datapack.text_right := [10; 11];
       datapack.label := 0;
       datapack.id_left := "l2"%string; datapack.id_right := "r2"%string |};
    {| datapack.text_left := [12; 13]; datapack.text_right := [14; 15];
       datapack.label := 1;
       datapack.id_left := "l3"%string; datapack.id_right := "r3"%string |} ].

Definition example_pack : datapack.DataPack :=
  {| datapack.dataframe := example_rows |}.

(** A data pack whose only row carries the label [-1]. *)
Definition negative_label_pack : datapack.DataPack :=
  {| datapack.dataframe :=
       [ {| datapack.text_left := [1; 2]; datapack.text_right := [3; 4];
            datapack.label := -1;
            datapack.id_left := "l0"%string; datapack.id_right := "r0"%string |} ] |}.

(** ** Specification vocabulary: valid index arrays, gathered rows, one-hot rows *)

(** Every index lies in [[0, n)]. *)
Definition valid_index_array (n : nat) (index_array : list Z) : Prop :=
  Forall (fun k => 0 <= k < Z.of_nat n) index_array.

(** The entries of a column at the listed positions, in the listed order. *)
Definition rows_at {A} (a : list A) (index_array : list Z) : list A :=
  omap (fun k => a !! Z.to_nat k) index_array.

(** The column a label selects among [c] columns. *)
Definition wrap (c : nat) (v : Z) : nat :=
  if decide (0 <= v) then Z.to_nat v else Z.to_nat (v + Z.of_nat c).

Definition one_hot (c : nat) (v : Z) : list Z :=
  <[wrap c v := 1]> (replicate c 0).

(** A row that is 1 at column [hot] and 0 at the other [c - 1] columns. *)
Definition one_hot_at (c : nat) (hot : nat) (r : list Z) : Prop :=
  length r = c /\
  forall j, (j < c)%nat -> r !! j = Some (if decide (j = hot) then 1 else 0).

(** The columns of a generator all have [n] entries. *)
Definition aligned (g : PointGenerator) (n : nat) : Prop :=
  length (x_left g) = n /\ length (x_right g) = n /\ length (y g) = n /\
  length (id_left g) = n /\ length (id_right g) = n.

(** The features of the batch over a valid index array. *)
Definition batch_features (g : PointGenerator) (index_array : list Z) : features :=
  {| f_x_left := np.array_of_rows (rows_at (x_left g) index_array);
     f_x_right := np.array_of_rows (rows_at (x_right g) index_array);
     f_id_left := rows_at (id_left g) index_array;
     f_id_right := rows_at (id_right g) index_array |}.

(** The tasks and labels on which the target encoding goes through. *)
Definition encodable (task : tasks.BaseTask) (labels : list Z) : Prop :=
  match task with
  | tasks.Ranking => True
  | tasks.Classification num_classes =>
      0 <= num_classes /\
      Forall (fun v => - num_classes <= v < num_classes) labels
  | tasks.Other _ => False
  end.

Definition batch_targets (g : PointGenerator) (index_array : list Z) : np.ndarray :=
  match _task g with
  | tasks.Ranking => np.Arr1 (y g)
  | tasks.Classification num_classes =>
      let c := Z.to_nat num_classes in
      np.Arr2 c (map (one_hot c) (rows_at (y g) index_array))
  | tasks.Other _ => np.Arr1 []
  end.

(** No attribute of [self] is assigned. *)
Definition readonly {A} (m : M A) : Prop :=
  forall self, (m self).1 = self.

(** The tasks whose branch indexes the label column or the rows. *)
Definition reaches_indexing (task : tasks.BaseTask) : Prop :=
  match task with
  | tasks.Ranking => True
  | tasks.Classification num_classes => 0 <= num_classes
  | tasks.Other _ => False
  end.

(** The row an index in [[-n, n)] stands for. *)
Definition wrap_index (n : nat) (k : Z) : Z :=
  if decide (k < 0) then k + Z.of_nat n else k.

(** [list(range(n))] *)
Definition full_index_array (n : nat) : list Z := Z.of_nat <$> seq 0 n.

(** The sum of a target row. *)
Definition row_total (r : list Z) : Z := foldr Z.add 0 r.

Ltac run_monad :=
  unfold getattr, lift, raise, mbind, M_bind, mret, M_ret; simpl.

(** ** Lemmas on the numpy operations *)

Section Numpy.

Lemma normalize_index_valid (n : nat) (k : Z) :
  0 <= k < Z.of_nat n -> np.normalize_index n k = Ok (Z.to_nat k).
Proof.
  intros Hk. unfold np.normalize_index, np.check_bounds.
  by rewrite decide_True.
Qed.

Lemma normalize_index_neg (n : nat) (k : Z) :
  - Z.of_nat n <= k < 0 ->
  np.normalize_index n k = Ok (Z.to_nat (k + Z.of_nat n)).
Proof.
  intros Hk. unfold np.normalize_index, np.check_bounds.
  rewrite decide_False; [|lia]. by rewrite decide_True.
Qed.

Lemma normalize_index_wrap (n : nat) (k : Z) :
  - Z.of_nat n <= k < Z.of_nat n ->
  np.normalize_index n k = Ok (wrap n k) /\ (wrap n k < n)%nat.
Proof.
  intros Hk. unfold wrap. destruct (decide (0 <= k)).
  - split; [apply normalize_index_valid|]; lia.
  - split; [apply normalize_index_neg|]; lia.
Qed.

Lemma check_bounds_raise (n : nat) (k : Z) (e : exn) :
  np.check_bounds n k = Raise e -> e = IndexError.
Proof. unfold np.check_bounds. repeat case_decide; congruence. Qed.

Lemma normalize_index_fits (n : nat) (k : Z) :
  np.fits_intp k -> np.normalize_index n k = np.check_bounds n k.
Proof.
  intros Hk. unfold np.normalize_index.
  destruct (np.check_bounds n k) as [i|e] eqn:Hc; [done|].
  by rewrite decide_True.
Qed.

Lemma normalize_index_out (n : nat) (k : Z) :
  np.fits_intp k ->
  ~ (- Z.of_nat n <= k < Z.of_nat n) ->
  np.normalize_index n k = Raise IndexError.
Proof.
  intros Hfit Hk. rewrite normalize_index_fits by done.
  unfold np.check_bounds. rewrite !decide_False; [done | lia | lia].
Qed.

(** An index out of range never gets through, whatever its size. *)
Lemma normalize_index_fails (n : nat) (k : Z) :
  ~ (- Z.of_nat n <= k < Z.of_nat n) ->
  exists e, np.normalize_index n k = Raise e.
Proof.
  intros Hk. unfold np.normalize_index, np.check_bounds.
  rewrite !decide_False by lia. case_decide; eauto.
Qed.

Lemma normalize_index_raise (n : nat) (k : Z) (e : exn) :
  np.fits_intp k -> np.normalize_index n k = Raise e -> e = IndexError.
Proof.
  intros Hk. rewrite normalize_index_fits by done. apply check_bounds_raise.
Qed.

(** An index that does not fit a C long is an [OverflowError], on either
    side of the range. *)
Lemma normalize_index_overflow (n : nat) (k : Z) :
  ~ (- Z.of_nat n <= k < Z.of_nat n) -> ~ np.fits_intp k ->
  np.normalize_index n k = Raise OverflowError.
Proof.
  intros Hk Hfit. unfold np.normalize_index, np.check_bounds.
  rewrite !decide_False by (done || lia). done.
Qed.

Lemma getitem_in_array_eq {A} (a : list A) (k : Z) :
  - Z.of_nat (length a) <= k < Z.of_nat (length a) \/ np.fits_intp k ->
  np.getitem_in_array a k = np.getitem a k.
Proof.
  intros Hk. unfold np.getitem_in_array, np.getitem, np.normalize_index.
  destruct (np.check_bounds (length a) k) as [i|e] eqn:Hc; [done|].
  destruct Hk as [Hk|Hk]; [|by rewrite decide_True].
  unfold np.check_bounds in Hc. repeat case_decide; (done || lia).
Qed.

Lemma getitem_in_array_raise {A} (a : list A) (k : Z) (e : exn) :
  np.getitem_in_array a k = Raise e -> e = IndexError.
Proof.
  unfold np.getitem_in_array, np.item.
  destruct (np.check_bounds (length a) k) as [i|e'] eqn:Hn; simpl.
  - destruct (a !! i); congruence.
  - intros [= <-]. by eapply check_bounds_raise.
Qed.

Lemma getitem_valid {A} (a : list A) (k : Z) (x : A) :
  0 <= k -> a !! Z.to_nat k = Some x -> np.getitem a k = Ok x.
Proof.
  intros Hk Hx. unfold np.getitem, np.item.
  rewrite normalize_index_valid.
  - simpl. by rewrite Hx.
  - apply lookup_lt_Some in Hx. lia.
Qed.

Lemma getitem_raise {A} (a : list A) (k : Z) (e : exn) :
  np.fits_intp k -> np.getitem a k = Raise e -> e = IndexError.
Proof.
  intros Hk. rewrite <- getitem_in_array_eq by by right.
  apply getitem_in_array_raise.
Qed.

Lemma take_raise {A} (a : list A) (ks : list Z) (e : exn) :
  np.take a ks = Raise e -> e = IndexError.
Proof.
  induction ks as [|k ks IH]; simpl; [done|].
  destruct (np.getitem_in_array a k) as [x|e'] eqn:Hg; simpl.
  - destruct (np.take a ks) as [xs|e'']; simpl; [done|].
    intros [= <-]. by apply IH.
  - intros [= <-]. by eapply getitem_in_array_raise.
Qed.

Lemma rows_at_valid {A} (a : list A) (ks : list Z) :
  valid_index_array (length a) ks ->
  length (rows_at a ks) = length ks /\
  forall i k, ks !! i = Some k -> rows_at a ks !! i = a !! Z.to_nat k.
Proof.
  induction 1 as [|k ks Hk _ [IHlen IH]]; [done|].
  destruct (lookup_lt_is_Some_2 a (Z.to_nat k)) as [x Hx]; [lia|].
  unfold rows_at in *. simpl. rewrite Hx. simpl. split; [by f_equal|].
  intros [|i] k'; simpl; [by intros [= <-] | apply IH].
Qed.

Lemma take_valid {A} (a : list A) (ks : list Z) :
  valid_index_array (length a) ks -> np.take a ks = Ok (rows_at a ks).
Proof.
  induction 1 as [|k ks Hk _ IH]; [done|].
  destruct (lookup_lt_is_Some_2 a (Z.to_nat k)) as [x Hx]; [lia|].
  simpl. rewrite getitem_in_array_eq by (left; lia).
  rewrite (getitem_valid a k x), IH by (done || lia).
  unfold rows_at. simpl. by rewrite Hx.
Qed.


Lemma array_of_rows_len (l : list (list Z)) :
  np.len (np.array_of_rows l) = length l.
Proof.
  destruct l as [|r rest]; [done|]. simpl.
  by destruct (forallb _ rest).
Qed.

Lemma array_of_rows_row (l : list (list Z)) (i : nat) :
  np.row (np.array_of_rows l) i = l !! i.
Proof.
  destruct l as [|r rest]; [done|]. simpl.
  by destruct (forallb _ rest).
Qed.

Lemma one_hot_spec (c : nat) (v : Z) :
  one_hot_at c (wrap c v) (one_hot c v).
Proof.
  unfold one_hot. split; [by rewrite length_insert, length_replicate|].
  intros j Hj. case_decide as Hjw.
  - subst j. apply list_lookup_insert_eq. by rewrite length_replicate.
  - rewrite list_lookup_insert_ne by done. by apply lookup_replicate_2.
Qed.

End Numpy.

(** ** Lemmas on the method monad *)

Section Monad.

Lemma bind_ok {A B} (m : M A) (f : A -> M B) self self' a :
  m self = (self', Ok a) -> (m ≫= f) self = f a self'.
Proof. intros H. unfold mbind, M_bind. by rewrite H. Qed.

Lemma bind_raise {A B} (m : M A) (f : A -> M B) self self' e :
  m self = (self', Raise e) -> (m ≫= f) self = (self', Raise e).
Proof. intros H. unfold mbind, M_bind. by rewrite H. Qed.

Lemma bind_getattr {A B} (attr : PointGenerator -> A) (f : A -> M B) self :
  (getattr attr ≫= f) self = f (attr self) self.
Proof. reflexivity. Qed.

Lemma bind_lift_ok {A B} (r : result A) (f : A -> M B) self a :
  r = Ok a -> (lift r ≫= f) self = f a self.
Proof. by intros ->. Qed.

Lemma readonly_ret {A} (a : A) : readonly (mret a).
Proof. by intros self. Qed.

Lemma readonly_getattr {A} (attr : PointGenerator -> A) :
  readonly (getattr attr).
Proof. by intros self. Qed.

Lemma readonly_raise {A} (e : exn) : readonly (@raise A e).
Proof. by intros self. Qed.

Lemma readonly_lift {A} (r : result A) : readonly (lift r).
Proof. by intros self. Qed.

Lemma readonly_bind {A B} (m : M A) (f : A -> M B) :
  readonly m -> (forall a, readonly (f a)) -> readonly (m ≫= f).
Proof.
  intros Hm Hf self. unfold mbind, M_bind.
  specialize (Hm self). destruct (m self) as [self' [a|e]]; simpl in Hm; subst.
  - apply Hf.
  - done.
Qed.

Lemma readonly_for_each {A B} (l : list A) (body : B -> A -> M B) :
  (forall acc a, readonly (body acc a)) ->
  forall acc, readonly (for_each l body acc).
Proof.
  intros Hbody. induction l as [|a l IH]; intros acc; simpl.
  - apply readonly_ret.
  - apply readonly_bind; [apply Hbody | apply IH].
Qed.

End Monad.

Create HintDb readonly.
#[local] Hint Resolve readonly_ret readonly_getattr readonly_raise
  readonly_lift readonly_bind readonly_for_each : readonly.

Lemma gather_row_readonly b kv : readonly (gather_row b kv).
Proof.
  unfold gather_row.
  repeat (apply readonly_bind; [auto with readonly | intros ?]).
  auto with readonly.
Qed.

Lemma one_hot_step_readonly a il : readonly (one_hot_step a il).
Proof. apply readonly_lift. Qed.

Lemma get_batch_readonly index_array : readonly (get_batch index_array).
Proof.
  unfold get_batch, _get_batch_of_transformed_samples.
  apply readonly_bind; [auto with readonly | intros task].
  apply readonly_bind.
  - destruct task; repeat (apply readonly_bind; [auto with readonly | intros ?]);
      auto using one_hot_step_readonly with readonly.
  - intros batch_y. apply readonly_bind; [|auto with readonly].
    apply readonly_for_each, gather_row_readonly.
Qed.

(** ** The two loops *)

Lemma init_aligned inputs task bs sh :
  aligned (init inputs task bs sh) (length (datapack.dataframe inputs)).
Proof. unfold aligned, init. simpl. by rewrite !length_map. Qed.

Lemma rows_at_cons {A} (a : list A) k ks :
  rows_at a (k :: ks) = rows_at a [k] ++ rows_at a ks.
Proof. unfold rows_at. simpl. by destruct (a !! Z.to_nat k). Qed.

Lemma getitem_rows_at {A} (a : list A) (k : Z) :
  0 <= k < Z.of_nat (length a) ->
  exists x, np.getitem a k = Ok x /\ rows_at a [k] = [x].
Proof.
  intros Hk. destruct (lookup_lt_is_Some_2 a (Z.to_nat k)) as [x Hx]; [lia|].
  exists x. split; [apply getitem_valid; [lia | done]|].
  unfold rows_at. simpl. by rewrite Hx.
Qed.

Lemma gather_row_valid g n b s k :
  aligned g n -> 0 <= k < Z.of_nat n ->
  gather_row b (s, k) g =
    (g, Ok {| batch_x_left := batch_x_left b ++ rows_at (x_left g) [k];
              batch_x_right := batch_x_right b ++ rows_at (x_right g) [k];
              batch_id_left := batch_id_left b ++ rows_at (id_left g) [k];
              batch_id_right := batch_id_right b ++ rows_at (id_right g) [k] |}).
Proof.
  intros (Hxl & Hxr & _ & Hil & Hir) Hk.
  destruct (getitem_rows_at (x_left g) k) as (l & Hl & ->); [lia|].
  destruct (getitem_rows_at (x_right g) k) as (r & Hr & ->); [lia|].
  destruct (getitem_rows_at (id_left g) k) as (i & Hi & ->); [lia|].
  destruct (getitem_rows_at (id_right g) k) as (j & Hj & ->); [lia|].
  unfold gather_row, getattr, lift, mbind, M_bind, mret, M_ret. simpl.
  by rewrite Hl, Hr, Hi, Hj.
Qed.

Lemma gather_loop g n index_array :
  aligned g n -> valid_index_array n index_array ->
  forall s b,
    for_each (enumerate_from s index_array) gather_row b g =
      (g, Ok {| batch_x_left := batch_x_left b ++ rows_at (x_left g) index_array;
                batch_x_right := batch_x_right b ++ rows_at (x_right g) index_array;
                batch_id_left := batch_id_left b ++ rows_at (id_left g) index_array;
                batch_id_right := batch_id_right b ++ rows_at (id_right g) index_array |}).
Proof.
  intros Hg. induction 1 as [|k ks Hk _ IH]; intros s b.
  - unfold rows_at. simpl. rewrite !app_nil_r. by destruct b.
  - cbn [enumerate_from for_each].
    erewrite bind_ok by (by eapply gather_row_valid).
    rewrite IH, !(rows_at_cons _ k ks). cbn [batch_x_left batch_x_right batch_id_left batch_id_right].
    by rewrite !(assoc_L (++)).
Qed.

(** The one-hot loop: rows before [s] are done, the rest are still zero. *)
Lemma one_hot_loop g (c : nat) labels :
  Forall (fun v => - Z.of_nat c <= v < Z.of_nat c) labels ->
  forall done_rows,
    for_each (enumerate_from (length done_rows) labels) one_hot_step
      (np.Arr2 c (done_rows ++ replicate (length labels) (replicate c 0))) g =
    (g, Ok (np.Arr2 c (done_rows ++ map (one_hot c) labels))).
Proof.
  induction 1 as [|v labels Hv _ IH]; intros done_rows; simpl; [done|].
  destruct (normalize_index_wrap c v Hv) as [Hn _].
  erewrite bind_ok; cycle 1.
  { unfold one_hot_step, lift, np.setitem2. simpl.
    rewrite Hn, normalize_index_valid
      by (rewrite length_app; simpl; lia).
    simpl. rewrite Nat2Z.id. reflexivity. }
  rewrite alter_app_r_alt, Nat.sub_diag by done. simpl.
  specialize (IH (done_rows ++ [one_hot c v])).
  rewrite length_app, <- (assoc_L (++)) in IH. simpl in IH.
  rewrite Nat.add_1_r in IH. fold (one_hot c v). rewrite IH. by rewrite <- (assoc_L (++)).
Qed.

(** A label out of range stops the one-hot loop, with an [IndexError] when
    the labels are machine integers. *)
Lemma one_hot_loop_raise g (c : nat) labels :
  Exists (fun v => ~ (- Z.of_nat c <= v < Z.of_nat c)) labels ->
  forall s rows,
    (s + length labels <= length rows)%nat ->
    exists e,
      for_each (enumerate_from s labels) one_hot_step (np.Arr2 c rows) g =
        (g, Raise e) /\
      (Forall np.fits_intp labels -> e = IndexError).
Proof.
  induction labels as [|v labels IH]; intros Hex s rows Hlen;
    [by inversion Hex|].
  simpl in Hlen.
  simpl. unfold one_hot_step at 1, lift, np.setitem2, mbind at 1, M_bind. simpl.
  rewrite (normalize_index_valid (length rows) (Z.of_nat s)) by lia. simpl.
  destruct (decide (- Z.of_nat c <= v < Z.of_nat c)) as [Hv|Hv].
  - destruct (normalize_index_wrap c v Hv) as [-> _]. simpl.
    destruct (IH ltac:(by inversion Hex) (S s)
                (alter (fun r => <[wrap c v := 1]> r) (Z.to_nat (Z.of_nat s)) rows))
      as (e & Hloop & He).
    { rewrite length_alter. lia. }
    exists e. split; [done|]. intros Hfit. apply He. by inversion Hfit.
  - destruct (normalize_index_fails c v Hv) as [e He].
    exists e. rewrite He. split; [done|].
    intros Hfit. rewrite normalize_index_out in He; [congruence| |done].
    by inversion Hfit.
Qed.

Lemma take_length {A} (a l : list A) (ks : list Z) :
  np.take a ks = Ok l -> length l = length ks.
Proof.
  revert l. induction ks as [|k ks IH]; intros l; simpl; [by intros [= <-]|].
  destruct (np.getitem_in_array a k) as [x|]; [simpl|done].
  destruct (np.take a ks) as [xs|]; [simpl|done].
  intros [= <-]. simpl. f_equal. by apply IH.
Qed.

Lemma take_Forall {A} (P : A -> Prop) (a l : list A) (ks : list Z) :
  Forall P a -> np.take a ks = Ok l -> Forall P l.
Proof.
  intros Ha. revert l. induction ks as [|k ks IH]; intros l; simpl;
    [by intros [= <-]|].
  destruct (np.getitem_in_array a k) as [x|] eqn:Hx; [simpl|done].
  destruct (np.take a ks) as [xs|]; [simpl|done].
  intros [= <-]. constructor; [|by apply IH].
  unfold np.getitem_in_array, np.item in Hx.
  destruct (np.check_bounds (length a) k) as [i|]; [simpl in Hx|done].
  destruct (a !! i) as [x'|] eqn:Hi; [|done].
  injection Hx as <-. by eapply Forall_lookup_1.
Qed.

(** ** What a batch request returns *)

Lemma batch_targets_classification g C index_array :
  _task g = tasks.Classification C ->
  batch_targets g index_array =
    np.Arr2 (Z.to_nat C) (map (one_hot (Z.to_nat C)) (rows_at (y g) index_array)).
Proof. unfold batch_targets. by intros ->. Qed.

Lemma zeros_ok (n : nat) (c : Z) :
  0 <= c ->
  np.zeros n c = Ok (np.Arr2 (Z.to_nat c) (replicate n (replicate (Z.to_nat c) 0))).
Proof. intros Hc. unfold np.zeros. by rewrite decide_False by lia. Qed.

Lemma get_batch_ok g n index_array :
  aligned g n -> valid_index_array n index_array ->
  encodable (_task g) (rows_at (y g) index_array) ->
  get_batch index_array g =
    (g, Ok (batch_features g index_array, batch_targets g index_array)).
Proof.
  intros Hg Hidx Henc.
  pose proof (gather_loop g n index_array Hg Hidx 0%nat
    {| batch_x_left := []; batch_x_right := [];
       batch_id_left := []; batch_id_right := [] |}) as Hloop.
  simpl in Hloop.
  unfold get_batch, _get_batch_of_transformed_samples, batch_targets, enumerate.
  rewrite bind_getattr.
  destruct (_task g) as [|C|r]; [| |done].
  - run_monad. by rewrite Hloop.
  - destruct Henc as [HC Hlabels].
    destruct Hg as (_ & _ & Hy & _).
    assert (Hvalid : valid_index_array (length (y g)) index_array) by by rewrite Hy.
    destruct (rows_at_valid (y g) index_array Hvalid) as [Hlen _].
    pose proof (one_hot_loop g (Z.to_nat C) (rows_at (y g) index_array)) as Hhot.
    rewrite Z2Nat.id in Hhot by done.
    specialize (Hhot Hlabels []). simpl in Hhot. rewrite Hlen in Hhot.
    erewrite bind_ok; cycle 1.
    { erewrite bind_lift_ok by by apply zeros_ok.
      rewrite bind_getattr.
      erewrite bind_lift_ok by by apply take_valid.
      exact Hhot. }
    run_monad. by rewrite Hloop.
Qed.

Lemma get_batch_ok_features g n index_array f t :
  aligned g n -> valid_index_array n index_array ->
  (get_batch index_array g).2 = Ok (f, t) ->
  f = batch_features g index_array.
Proof.
  intros Hg Hidx.
  pose proof (gather_loop g n index_array Hg Hidx 0%nat
    {| batch_x_left := []; batch_x_right := [];
       batch_id_left := []; batch_id_right := [] |}) as Hloop.
  simpl in Hloop.
  unfold get_batch, _get_batch_of_transformed_samples, enumerate.
  rewrite bind_getattr.
  match goal with
  | |- context [mbind _ ?m] => set (encode := m)
  end.
  assert (Hro : readonly encode).
  { subst encode. destruct (_task g);
      repeat (apply readonly_bind; [auto with readonly | intros ?]);
      auto using one_hot_step_readonly with readonly. }
  unfold mbind at 1, M_bind at 1.
  specialize (Hro g). destruct (encode g) as [g' [batch_y|e]]; simpl in Hro; subst g'.
  - run_monad. rewrite Hloop. simpl. by intros [= <- _].
  - done.
Qed.

(** * Properties of batch requests *)

(** Over a [Ranking] task the targets are the whole label column, whatever
    the index array. *)
Lemma ranking_targets_whole_column inputs bs sh index_array :
  valid_index_array (length (datapack.dataframe inputs)) index_array ->
  exists f, (get_batch index_array (init inputs tasks.Ranking bs sh)).2 =
              Ok (f, np.Arr1 (map datapack.label (datapack.dataframe inputs))).
Proof.
  intros Hidx. eexists.
  by erewrite get_batch_ok by (done || apply init_aligned).
Qed.

(** C1, at the specification's own example: four rows labelled 0, 1, 0, 1,
    a [Ranking] task and the index array [2; 3].  The labels at rows 2 and 3
    are [0; 1], and the batch has two rows, but the targets returned are the
    whole column [0; 1; 0; 1]. *)
Theorem C1_ranking_targets_not_gathered :
  let g := init example_pack tasks.Ranking 2 false in
  rows_at (y g) [2; 3] = [0; 1] /\
  exists f, (get_batch [2; 3] g).2 = Ok (f, np.Arr1 [0; 1; 0; 1]) /\
            np.len (f_x_left f) = 2%nat /\
            np.Arr1 [0; 1; 0; 1] <> np.Arr1 (rows_at (y g) [2; 3]).
Proof. simpl. split; [done|]. eexists. by repeat split. Qed.

(** C2: over a [Classification] task with [C] classes, a valid index array
    whose labels all lie in [[0, C)] yields targets of shape
    [(len(index_array), C)], and row [i] is 1 at the column of the label of
    row [index_array[i]] and 0 at every other column. *)
Theorem C2_classification_one_hot inputs C bs sh index_array :
  0 <= C ->
  valid_index_array (length (datapack.dataframe inputs)) index_array ->
  Forall (fun v => 0 <= v < C)
    (rows_at (y (init inputs (tasks.Classification C) bs sh)) index_array) ->
  exists f t,
    (get_batch index_array (init inputs (tasks.Classification C) bs sh)).2 =
      Ok (f, t) /\
    np.shape t = [length index_array; Z.to_nat C] /\
    forall i k v,
      index_array !! i = Some k ->
      y (init inputs (tasks.Classification C) bs sh) !! Z.to_nat k = Some v ->
      exists r, np.row t i = Some r /\ one_hot_at (Z.to_nat C) (Z.to_nat v) r.
Proof.
  intros HC Hidx Hlabels.
  set (g := init inputs (tasks.Classification C) bs sh) in *.
  assert (Hg : aligned g (length (datapack.dataframe inputs)))
    by apply init_aligned.
  assert (Hy : valid_index_array (length (y g)) index_array).
  { destruct Hg as (_ & _ & -> & _). done. }
  destruct (rows_at_valid (y g) index_array Hy) as [Hlen Hrows].
  do 2 eexists. split; [|split].
  - erewrite get_batch_ok; [done | exact Hg | done |].
    split; [done|]. eapply Forall_impl; [exact Hlabels|]. simpl. lia.
  - rewrite (batch_targets_classification g C) by done.
    cbn [np.shape]. by rewrite length_map, Hlen.
  - intros i k v Hi Hv.
    rewrite (batch_targets_classification g C) by done.
    cbn [np.row]. rewrite list_lookup_fmap, (Hrows i k Hi), Hv.
    eexists. split; [done|].
    assert (0 <= v < C) as Hrange.
    { eapply (Forall_lookup_1 _ _ i v) in Hlabels; [done|].
      by rewrite (Hrows i k Hi). }
    replace (Z.to_nat v) with (wrap (Z.to_nat C) v)
      by (unfold wrap; by rewrite decide_True by lia).
    apply one_hot_spec.
Qed.

Lemma C2_classification_one_hot_witness :
  exists f t,
    (get_batch [0; 1] (init example_pack (tasks.Classification 2) 2 false)).2 =
      Ok (f, t) /\
    np.shape t = [2%nat; 2%nat] /\
    forall i k v,
      [0; 1] !! i = Some k ->
      y (init example_pack (tasks.Classification 2) 2 false) !! Z.to_nat k = Some v ->
      exists r, np.row t i = Some r /\ one_hot_at 2 (Z.to_nat v) r.
Proof.
  apply (C2_classification_one_hot example_pack 2 2 false [0; 1]).
  - lia.
  - repeat constructor; simpl; lia.
  - repeat constructor; simpl; lia.
Defined.




(** C4: when the task is neither a [Ranking] nor a [Classification] value,
    every batch request fails with the [ValueError] about the target mode. *)
Theorem C4_invalid_task_raises (g : PointGenerator) (index_array : list Z) :
  _task g <> tasks.Ranking ->
  (forall C, _task g <> tasks.Classification C) ->
  (get_batch index_array g).2 = Raise (ValueError invalid_task_msg).
Proof.
  intros Hr Hc.
  unfold get_batch, _get_batch_of_transformed_samples.
  rewrite bind_getattr.
  destruct (_task g) as [|C|r]; [done | by destruct (Hc C) | done].
Qed.

Lemma C4_invalid_task_raises_witness :
  (get_batch [0; 1] (init example_pack (tasks.Other "Classification"%string) 2 false)).2 =
    Raise (ValueError invalid_task_msg).
Proof.
  apply (C4_invalid_task_raises
           (init example_pack (tasks.Other "Classification"%string) 2 false) [0; 1]).
  - discriminate.
  - intros C. discriminate.
Defined.

(** C5: for a valid index array, a returned feature mapping has
    [len(index_array)] entries under each of [x_left], [x_right], [id_left]
    and [id_right]; and the request does return whenever the task can
    encode the labels. *)
Theorem C5_feature_lengths inputs task bs sh index_array :
  valid_index_array (length (datapack.dataframe inputs)) index_array ->
  (forall f t,
     (get_batch index_array (init inputs task bs sh)).2 = Ok (f, t) ->
     np.len (f_x_left f) = length index_array /\
     np.len (f_x_right f) = length index_array /\
     length (f_id_left f) = length index_array /\
     length (f_id_right f) = length index_array) /\
  (encodable task (rows_at (y (init inputs task bs sh)) index_array) ->
   exists f t, (get_batch index_array (init inputs task bs sh)).2 = Ok (f, t)).
Proof.
  intros Hidx. set (g := init inputs task bs sh).
  pose proof (init_aligned inputs task bs sh) as Hg. fold g in Hg.
  split.
  - intros f t Hok.
    rewrite (get_batch_ok_features g _ index_array f t Hg Hidx Hok).
    destruct Hg as (Hxl & Hxr & _ & Hil & Hir).
    unfold batch_features. cbn [f_x_left f_x_right f_id_left f_id_right].
    rewrite !array_of_rows_len.
    repeat split; apply rows_at_valid; congruence.
  - intros Henc. do 2 eexists.
    by erewrite (get_batch_ok g _ index_array Hg Hidx Henc).
Qed.

Lemma C5_feature_lengths_witness :
  exists f t,
    (get_batch [3; 0; 3] (init example_pack tasks.Ranking 2 true)).2 = Ok (f, t) /\
    np.len (f_x_left f) = 3%nat /\ np.len (f_x_right f) = 3%nat /\
    length (f_id_left f) = 3%nat /\ length (f_id_right f) = 3%nat.
Proof.
  destruct (C5_feature_lengths example_pack tasks.Ranking 2 true [3; 0; 3])
    as [Hlen Hret].
  - repeat constructor; simpl; lia.
  - destruct (Hret I) as (f & t & Hok).
    exists f, t. split; [exact Hok | exact (Hlen f t Hok)].
Defined.

(** C6: gathering keeps order and multiplicity.  For a valid index array,
    position [i] of each of the four sequences of a returned batch holds the
    stored value at row [index_array[i]], so a repeated index gives a
    repeated entry; and the request does return whenever the task can
    encode the labels. *)
Theorem C6_gather_order_multiplicity inputs task bs sh index_array :
  valid_index_array (length (datapack.dataframe inputs)) index_array ->
  (forall f t,
     (get_batch index_array (init inputs task bs sh)).2 = Ok (f, t) ->
     forall i k,
       index_array !! i = Some k ->
       np.row (f_x_left f) i = x_left (init inputs task bs sh) !! Z.to_nat k /\
       np.row (f_x_right f) i = x_right (init inputs task bs sh) !! Z.to_nat k /\
       f_id_left f !! i = id_left (init inputs task bs sh) !! Z.to_nat k /\
       f_id_right f !! i = id_right (init inputs task bs sh) !! Z.to_nat k) /\
  (encodable task (rows_at (y (init inputs task bs sh)) index_array) ->
   exists f t, (get_batch index_array (init inputs task bs sh)).2 = Ok (f, t)).
Proof.
  intros Hidx. set (g := init inputs task bs sh).
  pose proof (init_aligned inputs task bs sh) as Hg. fold g in Hg.
  split.
  - intros f t Hok i k Hi.
    rewrite (get_batch_ok_features g _ index_array f t Hg Hidx Hok).
    destruct Hg as (Hxl & Hxr & _ & Hil & Hir).
    unfold batch_features. cbn [f_x_left f_x_right f_id_left f_id_right].
    rewrite !array_of_rows_row.
    repeat split; apply rows_at_valid; (congruence || done).
  - intros Henc. do 2 eexists.
    by erewrite (get_batch_ok g _ index_array Hg Hidx Henc).
Qed.

Lemma C6_gather_order_multiplicity_witness :
  exists f t,
    (get_batch [1; 1; 0] (init example_pack (tasks.Classification 2) 2 true)).2 =
      Ok (f, t) /\
    (np.row (f_x_left f) 0 = Some [5; 6] /\ np.row (f_x_right f) 0 = Some [7; 8] /\
     f_id_left f !! 0%nat = Some "l1"%string /\
     f_id_right f !! 0%nat = Some "r1"%string) /\
    (np.row (f_x_left f) 1 = Some [5; 6] /\ np.row (f_x_right f) 1 = Some [7; 8] /\
     f_id_left f !! 1%nat = Some "l1"%string /\
     f_id_right f !! 1%nat = Some "r1"%string) /\
    (np.row (f_x_left f) 2 = Some [1; 2] /\ np.row (f_x_right f) 2 = Some [3; 4] /\
     f_id_left f !! 2%nat = Some "l0"%string /\
     f_id_right f !! 2%nat = Some "r0"%string).
Proof.
  destruct (C6_gather_order_multiplicity example_pack (tasks.Classification 2)
              2 true [1; 1; 0]) as [Hrows Hret].
  - repeat constructor; simpl; lia.
  - destruct Hret as (f & t & Hok).
    + simpl. split; [lia | repeat constructor; lia].
    + exists f, t. split; [exact Hok|].
      split; [exact (Hrows f t Hok 0%nat 1 eq_refl)|].
      split; [exact (Hrows f t Hok 1%nat 1 eq_refl)|].
      exact (Hrows f t Hok 2%nat 0 eq_refl).
Defined.

(** C7: two batch requests in succession with one index array give the
    same outcome, be it a batch or an exception. *)
Theorem C7_get_batch_idempotent (g : PointGenerator) (index_array : list Z) :
  (get_batch index_array (get_batch index_array g).1).2 =
  (get_batch index_array g).2.
Proof. by rewrite (get_batch_readonly index_array g). Qed.

(** C8: over a [Classification] task with [C] classes, a label [v] with
    [-C <= v < 0] at a requested row does not fail the request: when the
    labels of the requested rows all lie in [[-C, C)] the batch is returned,
    and the target row of [v] is 1 at column [C + v] and 0 elsewhere. *)
Theorem C8_negative_label_wraps inputs C bs sh index_array i k v :
  valid_index_array (length (datapack.dataframe inputs)) index_array ->
  Forall (fun v => - C <= v < C)
    (rows_at (y (init inputs (tasks.Classification C) bs sh)) index_array) ->
  index_array !! i = Some k ->
  y (init inputs (tasks.Classification C) bs sh) !! Z.to_nat k = Some v ->
  - C <= v < 0 ->
  exists f t r,
    (get_batch index_array (init inputs (tasks.Classification C) bs sh)).2 =
      Ok (f, t) /\
    np.row t i = Some r /\
    one_hot_at (Z.to_nat C) (Z.to_nat (C + v)) r.
Proof.
  intros Hidx Hlabels Hi Hv Hneg.
  set (g := init inputs (tasks.Classification C) bs sh) in *.
  assert (Hg : aligned g (length (datapack.dataframe inputs)))
    by apply init_aligned.
  assert (Hy : valid_index_array (length (y g)) index_array).
  { destruct Hg as (_ & _ & -> & _). done. }
  destruct (rows_at_valid (y g) index_array Hy) as [_ Hrows].
  do 3 eexists. split; [|split].
  - erewrite get_batch_ok; [done | exact Hg | done |]. split; [lia | done].
  - rewrite (batch_targets_classification g C) by done.
    cbn [np.row]. by rewrite list_lookup_fmap, (Hrows i k Hi), Hv.
  - replace (Z.to_nat (C + v)) with (wrap (Z.to_nat C) v).
    + apply one_hot_spec.
    + unfold wrap. rewrite decide_False by lia. f_equal. lia.
Qed.

Lemma C8_negative_label_wraps_witness :
  exists f t r,
    (get_batch [0] (init negative_label_pack (tasks.Classification 2) 1 false)).2 =
      Ok (f, t) /\
    np.row t 0 = Some r /\
    one_hot_at 2 (Z.to_nat (2 + -1)) r.
Proof.
  apply (C8_negative_label_wraps negative_label_pack 2 1 false [0] 0%nat 0 (-1)).
  - repeat constructor; simpl; lia.
  - repeat constructor; simpl; lia.
  - reflexivity.
  - reflexivity.
  - lia.
Defined.

(** C9: the empty index array is served under both task variants: the four
    feature sequences are empty, and over a [Classification] task with [C]
    classes the targets have shape [(0, C)]. *)
Theorem C9_empty_index_array (g : PointGenerator) :
  encodable (_task g) [] ->
  exists f t,
    (get_batch [] g).2 = Ok (f, t) /\
    np.len (f_x_left f) = 0%nat /\ np.len (f_x_right f) = 0%nat /\
    f_id_left f = [] /\ f_id_right f = [] /\
    forall C, _task g = tasks.Classification C ->
              np.shape t = [0%nat; Z.to_nat C].
Proof.
  intros Henc.
  unfold get_batch, _get_batch_of_transformed_samples, enumerate.
  rewrite bind_getattr.
  destruct (_task g) as [|C|r] eqn:Ht; [| |done].
  - do 2 eexists. split; [reflexivity|]. by repeat split.
  - destruct Henc as [HC _]. do 2 eexists. split.
    + erewrite bind_ok; [reflexivity|].
      erewrite bind_lift_ok by by apply zeros_ok. reflexivity.
    + repeat split; try done. by intros C' [= <-].
Qed.

Lemma C9_empty_index_array_witness :
  exists f t,
    (get_batch [] (init example_pack (tasks.Classification 2) 2 false)).2 = Ok (f, t) /\
    np.len (f_x_left f) = 0%nat /\ np.len (f_x_right f) = 0%nat /\
    f_id_left f = [] /\ f_id_right f = [] /\
    forall C, tasks.Classification 2 = tasks.Classification C ->
              np.shape t = [0%nat; Z.to_nat C].
Proof.
  apply (C9_empty_index_array (init example_pack (tasks.Classification 2) 2 false)).
  simpl. split; [lia | constructor].
Defined.

(** C10: a batch request leaves the five stored columns as they were,
    whether it returns a batch or raises. *)
Theorem C10_columns_unchanged (g : PointGenerator) (index_array : list Z) :
  x_left (get_batch index_array g).1 = x_left g /\
  x_right (get_batch index_array g).1 = x_right g /\
  y (get_batch index_array g).1 = y g /\
  id_left (get_batch index_array g).1 = id_left g /\
  id_right (get_batch index_array g).1 = id_right g.
Proof. by rewrite (get_batch_readonly index_array g). Qed.

(** * Further properties of the generator *)

(** ** Which exception a batch request raises *)

Lemma zeros_raise n c e :
  np.zeros n c = Raise e ->
  c < 0 /\ e = ValueError "negative dimensions are not allowed"%string.
Proof. unfold np.zeros. case_decide; [|done]. by intros [= <-]. Qed.

Lemma gather_row_raise b kv g g' e :
  np.fits_intp kv.2 ->
  gather_row b kv g = (g', Raise e) -> e = IndexError.
Proof.
  intros Hfit. unfold gather_row. run_monad.
  destruct (np.getitem (x_left g) kv.2) eqn:H1;
    [|intros [= _ <-]; by eapply getitem_raise].
  destruct (np.getitem (x_right g) kv.2) eqn:H2;
    [|intros [= _ <-]; by eapply getitem_raise].
  destruct (np.getitem (id_left g) kv.2) eqn:H3;
    [|intros [= _ <-]; by eapply getitem_raise].
  destruct (np.getitem (id_right g) kv.2) eqn:H4;
    [done|intros [= _ <-]; by eapply getitem_raise].
Qed.

Lemma gather_loop_raise index_array :
  Forall np.fits_intp index_array ->
  forall s b g g' e,
    for_each (enumerate_from s index_array) gather_row b g = (g', Raise e) ->
    e = IndexError.
Proof.
  induction 1 as [|k ks Hk _ IH]; intros s b g g' e; simpl; [done|].
  unfold mbind, M_bind.
  destruct (gather_row b (s, k) g) as [g1 [b'|e1]] eqn:Hrow.
  - apply IH.
  - intros [= _ <-]. by eapply (gather_row_raise b (s, k)).
Qed.

Lemma one_hot_loop_raise_index (c : nat) labels :
  Forall np.fits_intp labels ->
  forall s rows g g' e,
    (s + length labels <= length rows)%nat ->
    for_each (enumerate_from s labels) one_hot_step (np.Arr2 c rows) g =
      (g', Raise e) ->
    e = IndexError.
Proof.
  induction 1 as [|v labels Hv _ IH]; intros s rows g g' e Hlen; simpl;
    [done|].
  simpl in Hlen.
  unfold one_hot_step at 1, lift, np.setitem2, mbind at 1, M_bind. simpl.
  rewrite (normalize_index_valid (length rows) (Z.of_nat s)) by lia. simpl.
  destruct (np.normalize_index c v) as [j|e1] eqn:Hj; simpl.
  - apply IH. rewrite length_alter. lia.
  - intros [= _ <-]. by eapply normalize_index_raise.
Qed.

(** X1: when the index array and the label column hold machine integers,
    the exception of a failed batch request is decided by the task: the
    [ValueError] on the target mode for a task of neither class, the
    [ValueError] of [np.zeros] for a negative class count, and an
    [IndexError] otherwise. *)
Theorem get_batch_error_taxonomy (g : PointGenerator) index_array e :
  Forall np.fits_intp index_array ->
  Forall np.fits_intp (y g) ->
  (get_batch index_array g).2 = Raise e ->
  match _task g with
  | tasks.Ranking => e = IndexError
  | tasks.Classification C =>
      (C < 0 /\ e = ValueError "negative dimensions are not allowed"%string) \/
      (0 <= C /\ e = IndexError)
  | tasks.Other _ => e = ValueError invalid_task_msg
  end.
Proof.
  intros Hidx Hlabels.
  unfold get_batch, _get_batch_of_transformed_samples, enumerate.
  rewrite bind_getattr.
  assert (Hgather : forall batch_y g0 e0,
    ((b ← for_each (enumerate_from 0 index_array) gather_row
            {| batch_x_left := []; batch_x_right := [];
               batch_id_left := []; batch_id_right := [] |};
      mret ({| f_x_left := np.array_of_rows (batch_x_left b);
               f_x_right := np.array_of_rows (batch_x_right b);
               f_id_left := batch_id_left b;
               f_id_right := batch_id_right b |}, np.array batch_y)) g0).2
      = Raise e0 -> e0 = IndexError).
  { intros batch_y g0 e0. unfold mbind, M_bind.
    destruct (for_each _ gather_row _ g0) as [g1 [b|e1]] eqn:Hloop; [done|].
    intros [= <-]. exact (gather_loop_raise index_array Hidx _ _ _ _ _ Hloop). }
  destruct (_task g) as [|C|r].
  - erewrite bind_ok by reflexivity. apply Hgather.
  - destruct (decide (C < 0)) as [HC|HC].
    + erewrite bind_raise; cycle 1.
      { erewrite bind_raise; [reflexivity|].
        unfold lift, np.zeros. by rewrite decide_True. }
      intros [= <-]. by left.
    + intros H. right. split; [lia|]. revert H.
      destruct (np.take (y g) index_array) as [labels|et] eqn:Htake.
      * destruct (for_each (enumerate_from 0 labels) one_hot_step
                    (np.Arr2 (Z.to_nat C)
                       (replicate (length index_array)
                          (replicate (Z.to_nat C) 0))) g)
          as [g1 [batch_y|e1]] eqn:Hloop.
        -- erewrite bind_ok; [apply Hgather|].
           erewrite bind_lift_ok by (apply zeros_ok; lia).
           rewrite bind_getattr. erewrite bind_lift_ok by done. exact Hloop.
        -- erewrite bind_raise; cycle 1.
           { erewrite bind_lift_ok by (apply zeros_ok; lia).
             rewrite bind_getattr. erewrite bind_lift_ok by done. exact Hloop. }
           intros [= <-].
           eapply (one_hot_loop_raise_index (Z.to_nat C) labels);
             [by eapply take_Forall | | exact Hloop].
           rewrite length_replicate, (take_length _ _ _ Htake). simpl. lia.
      * erewrite bind_raise; cycle 1.
        { erewrite bind_lift_ok by (apply zeros_ok; lia).
          rewrite bind_getattr. erewrite bind_raise; [reflexivity|].
          unfold lift. by rewrite Htake. }
        intros [= <-]. by eapply take_raise.
  - by intros [= <-].
Qed.

Lemma get_batch_error_taxonomy_witness :
  (get_batch [0; 4] (init example_pack tasks.Ranking 2 false)).2 = Raise IndexError /\
  (get_batch [0] (init example_pack (tasks.Classification (-1)) 2 false)).2 =
    Raise (ValueError "negative dimensions are not allowed"%string) /\
  ((-1 < 0 /\
    ValueError "negative dimensions are not allowed"%string =
    ValueError "negative dimensions are not allowed"%string) \/
   (0 <= -1 /\
    ValueError "negative dimensions are not allowed"%string = IndexError)) /\
  IndexError = IndexError.
Proof.
  split; [reflexivity|]. split; [reflexivity|]. split.
  - apply (get_batch_error_taxonomy
             (init example_pack (tasks.Classification (-1)) 2 false) [0]
             (ValueError "negative dimensions are not allowed"%string)).
    + repeat constructor; unfold np.fits_intp; lia.
    + repeat constructor; unfold np.fits_intp; simpl; lia.
    + reflexivity.
  - apply (get_batch_error_taxonomy
             (init example_pack tasks.Ranking 2 false) [0; 4] IndexError).
    + repeat constructor; unfold np.fits_intp; lia.
    + repeat constructor; unfold np.fits_intp; simpl; lia.
    + reflexivity.
Defined.

(** ** When a batch is returned *)

Lemma get_batch_bad_label g n C index_array :
  _task g = tasks.Classification C -> 0 <= C ->
  aligned g n -> valid_index_array n index_array ->
  Exists (fun v => ~ (- C <= v < C)) (rows_at (y g) index_array) ->
  exists e, get_batch index_array g = (g, Raise e).
Proof.
  intros Ht HC (_ & _ & Hy & _) Hidx Hbad.
  assert (Hvalid : valid_index_array (length (y g)) index_array)
    by by rewrite Hy.
  destruct (one_hot_loop_raise g (Z.to_nat C) (rows_at (y g) index_array))
    with (s := 0%nat)
         (rows := replicate (length index_array) (replicate (Z.to_nat C) 0))
    as (e & Hloop & _).
  { by rewrite Z2Nat.id. }
  { rewrite length_replicate.
    destruct (rows_at_valid (y g) index_array Hvalid) as [-> _]. simpl. lia. }
  exists e.
  unfold get_batch, _get_batch_of_transformed_samples, enumerate.
  rewrite bind_getattr, Ht.
  erewrite bind_raise; [done|].
  erewrite bind_lift_ok by by apply zeros_ok.
  rewrite bind_getattr.
  erewrite bind_lift_ok by by apply take_valid.
  exact Hloop.
Qed.

(** X2: for a valid index array, the batch is returned exactly when the task is
    a [Ranking], or a [Classification] with a class count [C >= 0] and every
    requested label in [[-C, C)]. *)
Theorem get_batch_returns_iff_encodable inputs task bs sh index_array :
  valid_index_array (length (datapack.dataframe inputs)) index_array ->
  (exists f t, (get_batch index_array (init inputs task bs sh)).2 = Ok (f, t)) <->
  encodable task (rows_at (y (init inputs task bs sh)) index_array).
Proof.
  intros Hidx. set (g := init inputs task bs sh).
  pose proof (init_aligned inputs task bs sh) as Hg. fold g in Hg.
  split.
  - intros (f & t & Hok).
    assert (Htask : _task g = task) by done.
    destruct task as [|C|r]; simpl.
    + done.
    + destruct (decide (0 <= C)) as [HC|HC].
      * split; [done|].
        destruct (decide (Forall (fun v => - C <= v < C) (rows_at (y g) index_array)))
          as [Hall|Hnot]; [done|].
        apply not_Forall_Exists in Hnot; [|apply _].
        destruct (get_batch_bad_label g _ C index_array Htask HC Hg Hidx Hnot)
          as [e He].
        by rewrite He in Hok.
      * apply (f_equal (fun r => match r with Ok _ => true | Raise _ => false end))
          in Hok.
        unfold get_batch, _get_batch_of_transformed_samples in Hok.
        rewrite bind_getattr, Htask in Hok.
        erewrite bind_raise in Hok; [done|].
        erewrite bind_raise; [done|].
        unfold lift, np.zeros. rewrite decide_True by lia. done.
    + unfold get_batch, _get_batch_of_transformed_samples in Hok.
      by rewrite bind_getattr, Htask in Hok.
  - intros Henc. do 2 eexists.
    by erewrite (get_batch_ok g _ index_array Hg Hidx Henc).
Qed.

Lemma get_batch_returns_iff_encodable_witness :
  (exists f t,
     (get_batch [0; 3] (init example_pack (tasks.Classification 2) 2 false)).2 =
       Ok (f, t)) <->
  encodable (tasks.Classification 2)
    (rows_at (y (init example_pack (tasks.Classification 2) 2 false)) [0; 3]).
Proof.
  apply (get_batch_returns_iff_encodable example_pack (tasks.Classification 2)
           2 false [0; 3]).
  repeat constructor; simpl; lia.
Defined.

(** ** Indices out of range *)

Lemma getitem_out {A} (a : list A) (k : Z) :
  np.fits_intp k ->
  ~ (- Z.of_nat (length a) <= k < Z.of_nat (length a)) ->
  np.getitem a k = Raise IndexError.
Proof.
  intros Hfit Hk. unfold np.getitem. by rewrite normalize_index_out.
Qed.

Lemma getitem_in_array_out {A} (a : list A) (k : Z) :
  ~ (- Z.of_nat (length a) <= k < Z.of_nat (length a)) ->
  np.getitem_in_array a k = Raise IndexError.
Proof.
  intros Hk. unfold np.getitem_in_array, np.check_bounds.
  by rewrite !decide_False by lia.
Qed.

Lemma take_out {A} (a : list A) (ks : list Z) :
  Exists (fun k => ~ (- Z.of_nat (length a) <= k < Z.of_nat (length a))) ks ->
  np.take a ks = Raise IndexError.
Proof.
  induction ks as [|k ks IH]; intros Hex; [by inversion Hex|].
  simpl. destruct (np.getitem_in_array a k) as [x|e] eqn:Hk; simpl.
  - rewrite IH; [done|]. inversion Hex as [? ? Hout|]; [|done].
    by rewrite (getitem_in_array_out a k Hout) in Hk.
  - by rewrite (getitem_in_array_raise a k e Hk).
Qed.

Lemma gather_row_out g n b s k :
  aligned g n -> np.fits_intp k -> ~ (- Z.of_nat n <= k < Z.of_nat n) ->
  gather_row b (s, k) g = (g, Raise IndexError).
Proof.
  intros (Hxl & _) Hfit Hk. unfold gather_row. run_monad.
  rewrite getitem_out; [done|done|]. by rewrite Hxl.
Qed.

Lemma gather_loop_out g n index_array :
  aligned g n ->
  Forall np.fits_intp index_array ->
  Exists (fun k => ~ (- Z.of_nat n <= k < Z.of_nat n)) index_array ->
  forall s b,
    for_each (enumerate_from s index_array) gather_row b g = (g, Raise IndexError).
Proof.
  intros Hg. induction 1 as [|k ks Hk Hks IH]; intros Hex s b;
    [by inversion Hex|].
  simpl. unfold mbind, M_bind.
  pose proof (gather_row_readonly b (s, k) g) as Hro.
  destruct (gather_row b (s, k) g) as [g1 [b'|e]] eqn:Hrow;
    simpl in Hro; subst g1.
  - apply IH. inversion Hex as [? ? Hout|]; [|done].
    by rewrite (gather_row_out g n b s k Hg Hk Hout) in Hrow.
  - by rewrite (gather_row_raise b (s, k) g g e Hk Hrow).
Qed.

(** X3: when the index array holds machine integers, an index below [-N]
    or from [N] on, anywhere in it, makes the request fail with an
    [IndexError], under a [Ranking] task and under a [Classification] task
    with a class count [C >= 0]. *)
Theorem get_batch_index_out_of_range inputs task bs sh index_array :
  reaches_indexing task ->
  Forall np.fits_intp index_array ->
  Exists (fun k => ~ (- Z.of_nat (length (datapack.dataframe inputs)) <= k
                      < Z.of_nat (length (datapack.dataframe inputs))))
    index_array ->
  (get_batch index_array (init inputs task bs sh)).2 = Raise IndexError.
Proof.
  intros Htask Hfit Hex. set (g := init inputs task bs sh).
  pose proof (init_aligned inputs task bs sh) as Hg. fold g in Hg.
  assert (Ht : _task g = task) by done.
  unfold get_batch, _get_batch_of_transformed_samples, enumerate.
  rewrite bind_getattr, Ht.
  destruct task as [|C|r]; [| |done].
  - erewrite bind_ok by reflexivity.
    erewrite bind_raise; [done|]. by eapply gather_loop_out.
  - erewrite bind_raise; [done|].
    erewrite bind_lift_ok by by apply zeros_ok.
    rewrite bind_getattr. erewrite bind_raise; [done|].
    unfold lift. rewrite take_out; [done|].
    destruct Hg as (_ & _ & -> & _). exact Hex.
Qed.

Lemma get_batch_index_out_of_range_witness :
  (get_batch [1; 4; 0] (init example_pack tasks.Ranking 2 false)).2 =
    Raise IndexError.
Proof.
  apply (get_batch_index_out_of_range example_pack tasks.Ranking
           2 false [1; 4; 0]).
  - exact I.
  - repeat constructor; unfold np.fits_intp; lia.
  - apply Exists_cons_tl, Exists_cons_hd. simpl. lia.
Defined.

(** ** Negative indices *)

Lemma wrap_index_range (n : nat) (k : Z) :
  - Z.of_nat n <= k < Z.of_nat n -> 0 <= wrap_index n k < Z.of_nat n.
Proof. unfold wrap_index. case_decide; lia. Qed.

Lemma getitem_wrap_index {A} (a : list A) (k : Z) :
  - Z.of_nat (length a) <= k < Z.of_nat (length a) ->
  np.getitem a k = np.getitem a (wrap_index (length a) k).
Proof.
  intros Hk. unfold wrap_index. case_decide; [|done].
  unfold np.getitem.
  rewrite normalize_index_neg, normalize_index_valid by lia. done.
Qed.

Lemma getitem_in_array_wrap_index {A} (a : list A) (k : Z) :
  - Z.of_nat (length a) <= k < Z.of_nat (length a) ->
  np.getitem_in_array a k = np.getitem_in_array a (wrap_index (length a) k).
Proof.
  intros Hk. pose proof (wrap_index_range (length a) k Hk) as Hw.
  rewrite !getitem_in_array_eq by (left; lia).
  by apply getitem_wrap_index.
Qed.

Lemma take_wrap_index {A} (a : list A) (ks : list Z) :
  Forall (fun k => - Z.of_nat (length a) <= k < Z.of_nat (length a)) ks ->
  np.take a ks = np.take a (wrap_index (length a) <$> ks).
Proof.
  induction 1 as [|k ks Hk _ IH]; [done|].
  simpl. by rewrite <- getitem_in_array_wrap_index, IH.
Qed.

Lemma gather_row_wrap_index g n b s k :
  aligned g n -> - Z.of_nat n <= k < Z.of_nat n ->
  gather_row b (s, k) g = gather_row b (s, wrap_index n k) g.
Proof.
  intros (Hxl & Hxr & _ & Hil & Hir) Hk. unfold gather_row. run_monad.
  rewrite <- Hxl at 1. rewrite <- getitem_wrap_index by by rewrite Hxl.
  destruct (np.getitem (x_left g) k); [|done].
  rewrite <- Hxr at 1. rewrite <- getitem_wrap_index by by rewrite Hxr.
  destruct (np.getitem (x_right g) k); [|done].
  rewrite <- Hil at 1. rewrite <- getitem_wrap_index by by rewrite Hil.
  destruct (np.getitem (id_left g) k); [|done].
  rewrite <- Hir at 1. rewrite <- getitem_wrap_index by by rewrite Hir.
  done.
Qed.

Lemma gather_loop_wrap_index g n index_array :
  aligned g n ->
  Forall (fun k => - Z.of_nat n <= k < Z.of_nat n) index_array ->
  forall s b,
    for_each (enumerate_from s index_array) gather_row b g =
    for_each (enumerate_from s (wrap_index n <$> index_array)) gather_row b g.
Proof.
  intros Hg. induction 1 as [|k ks Hk _ IH]; intros s b; [done|].
  simpl. unfold mbind, M_bind.
  rewrite <- (gather_row_wrap_index g n b s k Hg Hk).
  pose proof (gather_row_readonly b (s, k) g) as Hro.
  destruct (gather_row b (s, k) g) as [g1 [b'|e]]; simpl in Hro; subst g1;
    [apply IH | done].
Qed.

Lemma bind_cong_readonly {A B} (m1 m2 : M A) (f1 f2 : A -> M B) g :
  m1 g = m2 g -> readonly m1 -> (forall a, f1 a g = f2 a g) ->
  (m1 ≫= f1) g = (m2 ≫= f2) g.
Proof.
  intros Hm Hro Hf. unfold mbind, M_bind. rewrite <- Hm.
  specialize (Hro g). destruct (m1 g) as [g1 [a|e]]; simpl in Hro; subst; auto.
Qed.

(** X4: an index [k] with [-N <= k < 0] stands for row [N + k]: a request whose
    indices lie in [[-N, N)] has the outcome of the request with every
    negative index replaced by the row it stands for, and that index array
    is valid. *)
Theorem get_batch_negative_indices inputs task bs sh index_array :
  Forall (fun k => - Z.of_nat (length (datapack.dataframe inputs)) <= k
                   < Z.of_nat (length (datapack.dataframe inputs)))
    index_array ->
  valid_index_array (length (datapack.dataframe inputs))
    (wrap_index (length (datapack.dataframe inputs)) <$> index_array) /\
  get_batch index_array (init inputs task bs sh) =
  get_batch (wrap_index (length (datapack.dataframe inputs)) <$> index_array)
    (init inputs task bs sh).
Proof.
  intros Hidx. set (n := length (datapack.dataframe inputs)) in *.
  split.
  { unfold valid_index_array. rewrite Forall_fmap.
    eapply Forall_impl; [exact Hidx|]. intros k Hk. by apply wrap_index_range. }
  set (g := init inputs task bs sh).
  pose proof (init_aligned inputs task bs sh) as Hg. fold g n in Hg.
  unfold get_batch, _get_batch_of_transformed_samples, enumerate.
  rewrite !bind_getattr, length_fmap.
  assert (Hy : length (y g) = n) by (by destruct Hg as (_ & _ & ? & _)).
  apply bind_cong_readonly.
  - destruct (_task g) as [|C|r]; [done| |done].
    apply bind_cong_readonly; [done | apply readonly_lift | intros zs].
    rewrite !bind_getattr. rewrite <- Hy.
    by rewrite <- take_wrap_index by by rewrite Hy.
  - destruct (_task g);
      repeat (apply readonly_bind; [auto with readonly | intros ?]);
      auto using one_hot_step_readonly with readonly.
  - intros batch_y. apply bind_cong_readonly; [|  |done].
    + by apply gather_loop_wrap_index.
    + apply readonly_for_each, gather_row_readonly.
Qed.

Lemma get_batch_negative_indices_witness :
  valid_index_array 4 (wrap_index 4 <$> [-1; 0; -4]) /\
  get_batch [-1; 0; -4] (init example_pack (tasks.Classification 2) 2 false) =
  get_batch (wrap_index 4 <$> [-1; 0; -4])
    (init example_pack (tasks.Classification 2) 2 false).
Proof.
  apply (get_batch_negative_indices example_pack (tasks.Classification 2)
           2 false [-1; 0; -4]).
  repeat constructor; simpl; lia.
Defined.

(** ** Targets under a [Ranking] task *)

(** X5: under a [Ranking] task every valid request is served, and its targets
    are a copy of the whole label column in stored order: they have [N]
    entries, while each of the four feature sequences has
    [len(index_array)]. *)
Theorem ranking_targets_length inputs bs sh index_array :
  valid_index_array (length (datapack.dataframe inputs)) index_array ->
  exists f t,
    (get_batch index_array (init inputs tasks.Ranking bs sh)).2 = Ok (f, t) /\
    t = np.Arr1 (datapack.label <$> datapack.dataframe inputs) /\
    np.len t = length (datapack.dataframe inputs) /\
    np.len (f_x_left f) = length index_array /\
    np.len (f_x_right f) = length index_array /\
    length (f_id_left f) = length index_array /\
    length (f_id_right f) = length index_array.
Proof.
  intros Hidx. set (g := init inputs tasks.Ranking bs sh).
  pose proof (init_aligned inputs tasks.Ranking bs sh) as Hg. fold g in Hg.
  destruct Hg as (Hxl & Hxr & Hy & Hil & Hir).
  do 2 eexists. split; [|split; [|split]].
  - by erewrite (get_batch_ok g _ index_array) by done.
  - done.
  - simpl. by rewrite length_fmap.
  - cbn [batch_features f_x_left f_x_right f_id_left f_id_right].
    rewrite !array_of_rows_len.
    repeat split; apply rows_at_valid; congruence.
Qed.

Lemma ranking_targets_length_witness :
  exists f t,
    (get_batch [1] (init example_pack tasks.Ranking 2 false)).2 = Ok (f, t) /\
    t = np.Arr1 (datapack.label <$> datapack.dataframe example_pack) /\
    np.len t = 4%nat /\
    np.len (f_x_left f) = 1%nat /\
    np.len (f_x_right f) = 1%nat /\
    length (f_id_left f) = 1%nat /\
    length (f_id_right f) = 1%nat.
Proof.
  apply (ranking_targets_length example_pack 2 false [1]).
  repeat constructor; simpl; lia.
Defined.

(** ** The whole data pack as one batch *)

Lemma rows_at_seq {A} (pre a : list A) :
  rows_at (pre ++ a) (Z.of_nat <$> seq (length pre) (length a)) = a.
Proof.
  revert pre. induction a as [|x a IH]; intros pre; [done|].
  change (Z.of_nat <$> seq (length pre) (length (x :: a)))
    with (Z.of_nat (length pre) :: (Z.of_nat <$> seq (S (length pre)) (length a))).
  rewrite rows_at_cons. unfold rows_at at 1. simpl.
  rewrite Nat2Z.id, list_lookup_middle by done. simpl. f_equal.
  specialize (IH (pre ++ [x])).
  rewrite length_app, <- (assoc_L (++)) in IH. simpl in IH.
  by rewrite Nat.add_1_r in IH.
Qed.

Lemma rows_at_full {A} (a : list A) :
  rows_at a (full_index_array (length a)) = a.
Proof. apply (rows_at_seq [] a). Qed.

Lemma full_index_array_valid (n : nat) :
  valid_index_array n (full_index_array n).
Proof.
  unfold valid_index_array, full_index_array. rewrite Forall_fmap.
  apply Forall_forall. intros i Hi. apply elem_of_seq in Hi. simpl. lia.
Qed.

(** X6: requesting the rows [0, ..., N-1] in order gives the data pack back: the
    id sequences are its id columns, row [i] of [x_left] and [x_right] is
    the text of its row [i], and under a [Ranking] task the targets are its
    label column. *)
Theorem get_batch_full_round_trip inputs bs sh :
  exists f t,
    (get_batch (full_index_array (length (datapack.dataframe inputs)))
       (init inputs tasks.Ranking bs sh)).2 = Ok (f, t) /\
    f_id_left f = datapack.id_left <$> datapack.dataframe inputs /\
    f_id_right f = datapack.id_right <$> datapack.dataframe inputs /\
    (forall i, np.row (f_x_left f) i =
               datapack.text_left <$> datapack.dataframe inputs !! i) /\
    (forall i, np.row (f_x_right f) i =
               datapack.text_right <$> datapack.dataframe inputs !! i) /\
    t = np.Arr1 (datapack.label <$> datapack.dataframe inputs).
Proof.
  set (n := length (datapack.dataframe inputs)).
  set (g := init inputs tasks.Ranking bs sh).
  pose proof (init_aligned inputs tasks.Ranking bs sh) as Hg. fold g n in Hg.
  destruct Hg as (Hxl & Hxr & Hy & Hil & Hir).
  do 2 eexists. split.
  { by erewrite (get_batch_ok g n (full_index_array n));
      [| | apply full_index_array_valid |]. }
  cbn [batch_features f_x_left f_x_right f_id_left f_id_right].
  rewrite <- Hil at 1. rewrite <- Hir at 1. rewrite !rows_at_full.
  split; [done|]. split; [done|]. split; [|split; [|done]].
  - intros i. rewrite array_of_rows_row, <- Hxl, rows_at_full.
    apply list_lookup_fmap.
  - intros i. rewrite array_of_rows_row, <- Hxr, rows_at_full.
    apply list_lookup_fmap.
Qed.

(** ** Features and the constructor's other arguments *)

(** X7: the features of a batch depend on the data pack and the index array
    only: two generators over one data pack that both serve a valid request
    return the same features, whatever their tasks, batch sizes and shuffle
    flags. *)
Theorem features_independent_of_task inputs task1 bs1 sh1 task2 bs2 sh2
    index_array f1 t1 f2 t2 :
  valid_index_array (length (datapack.dataframe inputs)) index_array ->
  (get_batch index_array (init inputs task1 bs1 sh1)).2 = Ok (f1, t1) ->
  (get_batch index_array (init inputs task2 bs2 sh2)).2 = Ok (f2, t2) ->
  f1 = f2.
Proof.
  intros Hidx H1 H2.
  rewrite (get_batch_ok_features _ _ index_array f1 t1
             (init_aligned inputs task1 bs1 sh1) Hidx H1).
  by rewrite (get_batch_ok_features _ _ index_array f2 t2
                (init_aligned inputs task2 bs2 sh2) Hidx H2).
Qed.

Lemma features_independent_of_task_witness :
  exists f1 t1 f2 t2,
    (get_batch [3; 2] (init example_pack tasks.Ranking 2 false)).2 = Ok (f1, t1) /\
    (get_batch [3; 2] (init example_pack (tasks.Classification 2) 32 true)).2 =
      Ok (f2, t2) /\
    t1 <> t2 /\ f1 = f2.
Proof.
  do 4 eexists. split; [reflexivity|]. split; [reflexivity|]. split; [done|].
  apply (features_independent_of_task example_pack tasks.Ranking 2 false
           (tasks.Classification 2) 32 true [3; 2] _ (np.Arr1 [0; 1; 0; 1])
           _ (np.Arr2 2 [[0; 1]; [1; 0]])).
  - repeat constructor; simpl; lia.
  - reflexivity.
  - reflexivity.
Defined.

(** ** One-hot targets as a matrix *)

Lemma row_total_zeros (c : nat) : row_total (replicate c 0) = 0.
Proof. induction c as [|c IH]; [done|]. simpl. by rewrite IH. Qed.

Lemma row_total_one_hot (c j : nat) :
  (j < c)%nat -> row_total (<[j := 1]> (replicate c 0)) = 1.
Proof.
  revert j. induction c as [|c IH]; intros j Hj; [lia|].
  destruct j as [|j]; simpl.
  - by rewrite row_total_zeros.
  - rewrite IH by lia. done.
Qed.

Lemma one_hot_row_ok (c : nat) (v : Z) :
  - Z.of_nat c <= v < Z.of_nat c ->
  length (one_hot c v) = c /\ row_total (one_hot c v) = 1 /\
  Forall (fun x => x = 0 \/ x = 1) (one_hot c v).
Proof.
  intros Hv. destruct (normalize_index_wrap c v Hv) as [_ Hlt].
  unfold one_hot. split; [by rewrite length_insert, length_replicate|].
  split; [by apply row_total_one_hot|].
  apply Forall_insert; [|by right].
  apply Forall_replicate. by left.
Qed.

(** X9: under a [Classification] task with [C >= 0] classes, a valid request
    whose labels lie in [[-C, C)] returns a matrix with one row per index:
    each row has [C] entries, all 0 or 1, and sums to 1. *)
Theorem classification_targets_rows inputs C bs sh index_array :
  valid_index_array (length (datapack.dataframe inputs)) index_array ->
  encodable (tasks.Classification C)
    (rows_at (y (init inputs (tasks.Classification C) bs sh)) index_array) ->
  exists f rows,
    (get_batch index_array (init inputs (tasks.Classification C) bs sh)).2 =
      Ok (f, np.Arr2 (Z.to_nat C) rows) /\
    length rows = length index_array /\
    Forall (fun r => length r = Z.to_nat C /\ row_total r = 1 /\
                     Forall (fun x => x = 0 \/ x = 1) r) rows.
Proof.
  intros Hidx Henc. set (g := init inputs (tasks.Classification C) bs sh) in *.
  pose proof (init_aligned inputs (tasks.Classification C) bs sh) as Hg.
  fold g in Hg.
  assert (Hy : valid_index_array (length (y g)) index_array).
  { destruct Hg as (_ & _ & -> & _). done. }
  destruct (rows_at_valid (y g) index_array Hy) as [Hlen _].
  do 2 eexists. split; [|split].
  - erewrite (get_batch_ok g _ index_array Hg Hidx Henc).
    by rewrite (batch_targets_classification g C).
  - by rewrite length_map.
  - destruct Henc as [HC Hlabels]. apply Forall_fmap.
    eapply Forall_impl; [exact Hlabels|]. intros v Hv. simpl.
    apply one_hot_row_ok. by rewrite Z2Nat.id.
Qed.

Lemma classification_targets_rows_witness :
  exists f rows,
    (get_batch [1; 0; 1] (init example_pack (tasks.Classification 3) 2 false)).2 =
      Ok (f, np.Arr2 3 rows) /\
    length rows = 3%nat /\
    Forall (fun r => length r = 3%nat /\ row_total r = 1 /\
                     Forall (fun x => x = 0 \/ x = 1) r) rows.
Proof.
  apply (classification_targets_rows example_pack 3 2 false [1; 0; 1]).
  - repeat constructor; simpl; lia.
  - simpl. split; [lia | repeat constructor; lia].
Defined.

(** ** Batches of concatenated index arrays *)

Lemma rows_at_app {A} (a : list A) (ks1 ks2 : list Z) :
  rows_at a (ks1 ++ ks2) = rows_at a ks1 ++ rows_at a ks2.
Proof. apply omap_app. Qed.

(** X10: under a [Classification] task, the batch of [idx1 ++ idx2] is the batch
    of [idx1] followed by the batch of [idx2]: target rows, id sequences and
    the rows of [x_left] and [x_right] are those of the first batch, then
    those of the second. *)
Theorem get_batch_app inputs C bs sh idx1 idx2 :
  valid_index_array (length (datapack.dataframe inputs)) idx1 ->
  valid_index_array (length (datapack.dataframe inputs)) idx2 ->
  encodable (tasks.Classification C)
    (rows_at (y (init inputs (tasks.Classification C) bs sh)) (idx1 ++ idx2)) ->
  exists f1 rows1 f2 rows2 f,
    (get_batch idx1 (init inputs (tasks.Classification C) bs sh)).2 =
      Ok (f1, np.Arr2 (Z.to_nat C) rows1) /\
    (get_batch idx2 (init inputs (tasks.Classification C) bs sh)).2 =
      Ok (f2, np.Arr2 (Z.to_nat C) rows2) /\
    (get_batch (idx1 ++ idx2) (init inputs (tasks.Classification C) bs sh)).2 =
      Ok (f, np.Arr2 (Z.to_nat C) (rows1 ++ rows2)) /\
    f_id_left f = f_id_left f1 ++ f_id_left f2 /\
    f_id_right f = f_id_right f1 ++ f_id_right f2 /\
    (forall i, (i < length idx1)%nat ->
       np.row (f_x_left f) i = np.row (f_x_left f1) i /\
       np.row (f_x_right f) i = np.row (f_x_right f1) i) /\
    (forall i,
       np.row (f_x_left f) (length idx1 + i) = np.row (f_x_left f2) i /\
       np.row (f_x_right f) (length idx1 + i) = np.row (f_x_right f2) i).
Proof.
  intros H1 H2 Henc. set (g := init inputs (tasks.Classification C) bs sh) in *.
  pose proof (init_aligned inputs (tasks.Classification C) bs sh) as Hg.
  fold g in Hg.
  assert (H12 : valid_index_array (length (datapack.dataframe inputs))
                  (idx1 ++ idx2)) by by apply Forall_app.
  destruct Henc as [HC Hlabels]. rewrite rows_at_app in Hlabels.
  apply Forall_app in Hlabels as [Hl1 Hl2].
  assert (Hx1 : length (rows_at (x_left g) idx1) = length idx1).
  { destruct Hg as (Hxl & _). apply rows_at_valid. by rewrite Hxl. }
  assert (Hx2 : length (rows_at (x_right g) idx1) = length idx1).
  { destruct Hg as (_ & Hxr & _). apply rows_at_valid. by rewrite Hxr. }
  do 5 eexists. split; [|split; [|split]].
  - erewrite (get_batch_ok g _ idx1 Hg H1) by done.
    by rewrite (batch_targets_classification g C).
  - erewrite (get_batch_ok g _ idx2 Hg H2) by done.
    by rewrite (batch_targets_classification g C).
  - erewrite (get_batch_ok g _ (idx1 ++ idx2) Hg H12)
      by (split; [done|]; rewrite rows_at_app; by apply Forall_app).
    by rewrite (batch_targets_classification g C), rows_at_app, map_app.
  - cbn [batch_features f_x_left f_x_right f_id_left f_id_right].
    rewrite !rows_at_app.
    split; [done|]. split; [done|]. split.
    + intros i Hi. setoid_rewrite array_of_rows_row.
      by rewrite !lookup_app_l by lia.
    + intros i. setoid_rewrite array_of_rows_row.
      rewrite !lookup_app_r by lia. rewrite Hx1, Hx2.
      split; f_equal; lia.
Qed.

Lemma get_batch_app_witness :
  exists f1 rows1 f2 rows2 f,
    (get_batch [3] (init example_pack (tasks.Classification 2) 2 false)).2 =
      Ok (f1, np.Arr2 2 rows1) /\
    (get_batch [0; 3] (init example_pack (tasks.Classification 2) 2 false)).2 =
      Ok (f2, np.Arr2 2 rows2) /\
    (get_batch [3; 0; 3] (init example_pack (tasks.Classification 2) 2 false)).2 =
      Ok (f, np.Arr2 2 (rows1 ++ rows2)) /\
    f_id_left f = f_id_left f1 ++ f_id_left f2 /\
    f_id_right f = f_id_right f1 ++ f_id_right f2 /\
    (forall i, (i < 1)%nat ->
       np.row (f_x_left f) i = np.row (f_x_left f1) i /\
       np.row (f_x_right f) i = np.row (f_x_right f1) i) /\
    (forall i,
       np.row (f_x_left f) (1 + i) = np.row (f_x_left f2) i /\
       np.row (f_x_right f) (1 + i) = np.row (f_x_right f2) i).
Proof.
  apply (get_batch_app example_pack 2 2 false [3] [0; 3]).
  - repeat constructor; simpl; lia.
  - repeat constructor; simpl; lia.
  - simpl. split; [lia | repeat constructor; lia].
Defined.
